(** * GPTNeoXTokenizer: the special-token-aware wrapper over the byte-pair engine

    Shallow embedding of
    [keras_nlp/models/gpt_neo_x/gpt_neo_x_tokenizer.py].

    The class [GPTNeoXTokenizer] subclasses [BytePairTokenizer].  Its
    constructor calls the superclass constructor with keyword arguments,
    checks that ["<|endoftext|>"] is in the vocabulary, and stores three
    integer fields.  Its [get_config] removes one key from the superclass
    configuration.

    Python objects are modelled as records, dictionaries with string keys as
    [gmap string _], exceptions as the [Raise] branch of a result type, and
    keyword-argument calls as an explicit merge of the written keywords with
    the [**kwargs] dictionary. *)

From Stdlib Require Import ZArith String List.
From stdpp Require Import gmap strings list fin_maps.

Local Open Scope Z_scope.
Local Open Scope string_scope.

(** ** Python values, exceptions, results *)

(** The values that travel through the constructor and the configuration:
    a vocabulary is a dict from token to id or a path (a string), the merges
    are a list of rule strings or a path, the remaining engine options are
    scalars. *)
Inductive pyval : Type :=
  | PyNone
  | PyBool (b : bool)
  | PyInt (z : Z)
  | PyStr (s : string)
  | PyList (l : list string)
  | PyDict (d : gmap string Z).

(** The exceptions the modelled code can raise.  [TypeError_multiple_values]
    is Python's "got multiple values for keyword argument" of a call
    [f(k=..., **kwargs)] whose [kwargs] holds [k] as well. *)
Inductive exn : Type :=
  | TypeError_multiple_values (keyword : string)
  | TypeError_missing_argument (name : string)
  | ValueError (msg : string)
  | KeyError (key : string)
  | LookupError (token : string)
  | FileNotFoundError (path : string).

Inductive result (A : Type) : Type :=
  | Ok (a : A)
  | Raise (e : exn).
Arguments Ok {A} a.
Arguments Raise {A} e.

#[global] Instance result_ret : MRet result := fun _ a => Ok a.
#[global] Instance result_bind : MBind result :=
  fun _ _ f r => match r with Ok a => f a | Raise e => Raise e end.

(** [k in d] on a dict. *)
Definition py_in {V} (k : string) (d : gmap string V) : bool :=
  match d !! k with Some _ => true | None => false end.

(** [del d[k]]: removes the key, [KeyError] when it is absent. *)
Definition py_del {V} (d : gmap string V) (k : string) : result (gmap string V) :=
  match d !! k with
  | Some _ => Ok (delete k d)
  | None => Raise (KeyError k)
  end.

(** The keyword dictionary of a call [f(k1=v1, ..., kn=vn, **kwargs)]: the
    written keywords together with the entries of [kwargs]; a key of
    [kwargs] that is also a written keyword is a [TypeError], whatever [f]
    is. *)
Fixpoint keyword_call (explicit : list (string * pyval))
    (kwargs : gmap string pyval) : result (gmap string pyval) :=
  match explicit with
  | [] => Ok kwargs
  | (k, v) :: rest =>
      match kwargs !! k with
      | Some _ => Raise (TypeError_multiple_values k)
      | None => args ← keyword_call rest kwargs; Ok (<[k := v]> args)
      end
  end.

(** Binding of a required named parameter from a keyword dictionary. *)
Definition required (args : gmap string pyval) (name : string) : result pyval :=
  match args !! name with
  | Some v => Ok v
  | None => Raise (TypeError_missing_argument name)
  end.

(** Substring test, used to read error messages. *)
Fixpoint contains (needle hay : string) : bool :=
  String.prefix needle hay ||
  match hay with
  | EmptyString => false
  | String _ rest => contains needle rest
  end.

Section Tokenizer.

(** The external world of the engine: what a path resolves to, and the
    byte-pair segmentation itself, which the wrapper inherits unchanged. *)
Variable read_vocabulary_file : string -> option (gmap string Z).
Variable read_merges_file : string -> option (list string).
Variable byte_pair_encode :
  gmap string Z -> list string -> list string -> gmap string pyval ->
  string -> list Z.

(** ** The byte-pair engine (superclass [BytePairTokenizer]) *)

(** Modelled from the spec: the state of the BPE engine, class
    [BytePairTokenizer] of [keras_nlp/tokenizers/byte_pair_tokenizer.py],
    which is not among the sources.  The engine is built from a vocabulary,
    merges, unsplittable tokens and options; it keeps the vocabulary and
    merges references for its configuration and the mapping and rule list
    they resolve to. *)
Record BytePairTokenizer : Type := {
  bpe_vocabulary_ref : pyval;
  bpe_merges_ref : pyval;
  bpe_vocabulary : gmap string Z;
  bpe_merges : list string;
  bpe_unsplittable_tokens : list string;
  bpe_options : gmap string pyval
}.

(** Modelled from the spec: resolution of the [vocabulary] argument of the
    missing engine constructor, "an in-memory token->id mapping or a file
    path to a JSON-encoded mapping". *)
Definition resolve_vocabulary (vocabulary : pyval) : result (gmap string Z) :=
  match vocabulary with
  | PyDict d => Ok d
  | PyStr path =>
      match read_vocabulary_file path with
      | Some d => Ok d
      | None => Raise (FileNotFoundError path)
      end
  | _ => Raise (ValueError "Vocabulary must be a file path or dictionary")
  end.

(** Modelled from the spec: resolution of the [merges] argument of the
    missing engine constructor, "an in-memory ordered list of merge-rule
    strings or a file path to a newline-delimited merge-rule file". *)
Definition resolve_merges (merges : pyval) : result (list string) :=
  match merges with
  | PyList l => Ok l
  | PyStr path =>
      match read_merges_file path with
      | Some l => Ok l
      | None => Raise (FileNotFoundError path)
      end
  | _ => Raise (ValueError "Merges must be a file path or a list of merge rules")
  end.

(** Modelled from the spec: the [unsplittable_tokens] argument of the missing
    engine constructor, a set of strings, empty when not given. *)
Definition resolve_unsplittable (arg : option pyval) : result (list string) :=
  match arg with
  | None | Some PyNone => Ok []
  | Some (PyList l) => Ok l
  | Some _ => Raise (ValueError "unsplittable_tokens must be a list of strings")
  end.

(** Modelled from the spec: the missing engine constructor
    [BytePairTokenizer.__init__], the spec's
    [Construct(vocabulary, merges, unsplittable_tokens, options)], called
    with a keyword dictionary. *)
Definition BytePairTokenizer_init (args : gmap string pyval)
    : result BytePairTokenizer :=
  vocabulary ← required args "vocabulary";
  merges ← required args "merges";
  vocab ← resolve_vocabulary vocabulary;
  rules ← resolve_merges merges;
  unsplittable ← resolve_unsplittable (args !! "unsplittable_tokens");
  Ok {| bpe_vocabulary_ref := vocabulary;
        bpe_merges_ref := merges;
        bpe_vocabulary := vocab;
        bpe_merges := rules;
        bpe_unsplittable_tokens := unsplittable;
        bpe_options :=
          delete "vocabulary"
            (delete "merges" (delete "unsplittable_tokens" args)) |}.

(** Modelled from the spec: the missing [BytePairTokenizer.get_vocabulary],
    the spec's [GetVocabulary() -> mapping]. *)
Definition get_vocabulary (self : BytePairTokenizer) : gmap string Z :=
  bpe_vocabulary self.

(** Modelled from the spec: the missing [BytePairTokenizer.token_to_id], the
    spec's [TokenToId(token) -> id | fails with LookupError]. *)
Definition token_to_id (self : BytePairTokenizer) (token : string) : result Z :=
  match bpe_vocabulary self !! token with
  | Some id => Ok id
  | None => Raise (LookupError token)
  end.

(** Modelled from the spec: the missing [BytePairTokenizer.get_config], the
    record of "vocabulary and merges references plus any base-engine
    options", together with the unsplittable-token field that the subclass
    deletes. *)
Definition BytePairTokenizer_get_config (self : BytePairTokenizer)
    : gmap string pyval :=
  <["vocabulary" := bpe_vocabulary_ref self]>
    (<["merges" := bpe_merges_ref self]>
       (<["unsplittable_tokens" := PyList (bpe_unsplittable_tokens self)]>
          (bpe_options self))).

(** Modelled from the spec: the missing [BytePairTokenizer.tokenize], the
    spec's [Tokenize(text) -> ids], a function of the engine's vocabulary,
    merges, unsplittable tokens and options. *)
Definition BytePairTokenizer_tokenize (self : BytePairTokenizer)
    (text : string) : list Z :=
  byte_pair_encode (bpe_vocabulary self) (bpe_merges self)
    (bpe_unsplittable_tokens self) (bpe_options self) text.

(** ** The wrapper (class [GPTNeoXTokenizer]) *)

(** An instance: the superclass part and the three fields the constructor
    assigns. *)
Record GPTNeoXTokenizer : Type := {
  engine : BytePairTokenizer;
  end_token_id : Z;
  start_token_id : Z;
  pad_token_id : Z
}.

Definition end_token : string := "<|endoftext|>".

(** The message of the [ValueError] of the constructor, the two f-string
    pieces and the plain piece concatenated. *)
Definition missing_token_message (token : string) : string :=
  ("Cannot find token `'" +:+ token +:+ "'` in the provided ") +:+
  ("`vocabulary`. Please provide `'" +:+ token +:+ "'` in your ") +:+
  "`vocabulary` or use a pretrained `vocabulary` name.".

(** [GPTNeoXTokenizer.__init__(self, vocabulary, merges, **kwargs)]. *)
Definition GPTNeoXTokenizer_init (vocabulary merges : pyval)
    (kwargs : gmap string pyval) : result GPTNeoXTokenizer :=
  args ← keyword_call
            [("vocabulary", vocabulary);
             ("merges", merges);
             ("unsplittable_tokens", PyList [end_token])]
            kwargs;
  self ← BytePairTokenizer_init args;
  if negb (py_in end_token (get_vocabulary self)) then
    Raise (ValueError (missing_token_message end_token))
  else
    end_id ← token_to_id self end_token;
    let start_id := end_id in
    Ok {| engine := self;
          end_token_id := end_id;
          start_token_id := start_id;
          pad_token_id := 0 |}.

(** [GPTNeoXTokenizer.get_config(self)]. *)
Definition get_config (self : GPTNeoXTokenizer) : result (gmap string pyval) :=
  let config := BytePairTokenizer_get_config (engine self) in
  py_del config "unsplittable_tokens".

(** Modelled from the spec: reconstruction from a configuration, the spec's
    [Construct(GetConfiguration(t))]; the missing [from_config] of the base
    layer calls the class with the configuration as keyword arguments,
    which binds [vocabulary] and [merges] and leaves the rest in [kwargs]. *)
Definition from_config (config : gmap string pyval) : result GPTNeoXTokenizer :=
  vocabulary ← required config "vocabulary";
  merges ← required config "merges";
  GPTNeoXTokenizer_init vocabulary merges
    (delete "vocabulary" (delete "merges" config)).

(** The inherited [tokenize]: the subclass does not override it. *)
Definition tokenize (self : GPTNeoXTokenizer) (text : string) : list Z :=
  BytePairTokenizer_tokenize (engine self) text.

End Tokenizer.

(** ** Keyword arguments the constructor can forward *)

(** [kwargs] holds none of the three keywords the constructor writes in its
    call of the superclass constructor.  [vocabulary] and [merges] are named
    parameters of [__init__], so Python never leaves them in [kwargs]; only
    [unsplittable_tokens] can really be there. *)
Definition forwardable (kwargs : gmap string pyval) : Prop :=
  kwargs !! "vocabulary" = None ∧
  kwargs !! "merges" = None ∧
  kwargs !! "unsplittable_tokens" = None.

(** ** Concrete data *)

(** A file system with no files, and one with a single vocabulary file. *)
Definition no_vocabulary_file : string -> option (gmap string Z) :=
  fun _ => None.
Definition no_merges_file : string -> option (list string) :=
  fun _ => None.

(** A stand-in for the segmentation, where a concrete engine is needed:
    the id of the text when the text is a token, nothing otherwise. *)
Definition whole_text_id (vocab : gmap string Z) (_ _ : list string)
    (_ : gmap string pyval) (text : string) : list Z :=
  match vocab !! text with
  | Some id => [id]
  | None => []
  end.

(** The vocabulary of the spec's concrete scenario. *)
Definition scenario_vocabulary : gmap string Z :=
  <["[PAD]" := 0]> (<["[UNK]" := 1]> (<["<|endoftext|>" := 2]>
    (<["a" := 3]> (<["b" := 4]> ∅)))).

Definition scenario_without_end_token : gmap string Z :=
  <["[PAD]" := 0]> (<["[UNK]" := 1]> (<["a" := 2]> (<["b" := 3]> ∅))).

(** A vocabulary whose id 0 is not a pad token, and one with only the end
    token. *)
Definition pad_elsewhere_vocabulary : gmap string Z :=
  <["<|endoftext|>" := 0]> (<["[PAD]" := 1]> ∅).
Definition end_token_only_vocabulary : gmap string Z :=
  <["<|endoftext|>" := 0]> ∅.

(** Engine options a caller passes on, and keyword arguments that try to
    set the unsplittable tokens. *)
Definition example_options : gmap string pyval :=
  <["sequence_length" := PyInt 8]> (<["add_prefix_space" := PyBool false]> ∅).
Definition caller_unsplittable : gmap string pyval :=
  <["unsplittable_tokens" := PyList ["<|sep|>"]]> ∅.

(** The instance the scenario vocabulary gives with merges [["a b"]] and
    [example_options]. *)
Definition scenario_tokenizer : GPTNeoXTokenizer :=
  {| engine := {| bpe_vocabulary_ref := PyDict scenario_vocabulary;
                  bpe_merges_ref := PyList ["a b"];
                  bpe_vocabulary := scenario_vocabulary;
                  bpe_merges := ["a b"];
                  bpe_unsplittable_tokens := [end_token];
                  bpe_options := example_options |};
     end_token_id := 2;
     start_token_id := 2;
     pad_token_id := 0 |}.

Definition one_vocabulary_file : string -> option (gmap string Z) :=
  fun path => if String.eqb path "vocab.json" then Some scenario_vocabulary
              else None.
Definition one_merges_file : string -> option (list string) :=
  fun path => if String.eqb path "merges.txt" then Some ["a b"] else None.

(** * Properties *)

Section Properties.

Variable read_vocabulary_file : string -> option (gmap string Z).
Variable read_merges_file : string -> option (list string).
Variable byte_pair_encode :
  gmap string Z -> list string -> list string -> gmap string pyval ->
  string -> list Z.

Abbreviation init := (GPTNeoXTokenizer_init read_vocabulary_file read_merges_file).
Abbreviation super_init := (BytePairTokenizer_init read_vocabulary_file read_merges_file).
Abbreviation resolve_v := (resolve_vocabulary read_vocabulary_file).
Abbreviation resolve_m := (resolve_merges read_merges_file).

(** What an instance built from [vocabulary], [merges], [kwargs] looks like
    when the vocabulary resolves to [vm] with the end token at [i]. *)
Definition built (vocabulary merges : pyval) (kwargs : gmap string pyval)
    (vm : gmap string Z) (ml : list string) (i : Z) : GPTNeoXTokenizer :=
  {| engine := {| bpe_vocabulary_ref := vocabulary;
                  bpe_merges_ref := merges;
                  bpe_vocabulary := vm;
                  bpe_merges := ml;
                  bpe_unsplittable_tokens := [end_token];
                  bpe_options := kwargs |};
     end_token_id := i;
     start_token_id := i;
     pad_token_id := 0 |}.

Lemma keyword_call_forwardable vocabulary merges kwargs :
  forwardable kwargs ->
  keyword_call
    [("vocabulary", vocabulary); ("merges", merges);
     ("unsplittable_tokens", PyList [end_token])] kwargs
  = Ok (<["vocabulary" := vocabulary]>
          (<["merges" := merges]>
             (<["unsplittable_tokens" := PyList [end_token]]> kwargs))).
Proof.
  intros (Hv & Hm & Hu). simpl. by rewrite Hv, Hm, Hu.
Qed.

Lemma keyword_call_Ok_forwardable vocabulary merges kwargs args :
  keyword_call
    [("vocabulary", vocabulary); ("merges", merges);
     ("unsplittable_tokens", PyList [end_token])] kwargs = Ok args ->
  forwardable kwargs.
Proof.
  simpl. unfold forwardable.
  destruct (kwargs !! "vocabulary"); [discriminate|].
  destruct (kwargs !! "merges"); [discriminate|].
  destruct (kwargs !! "unsplittable_tokens"); [discriminate|].
  done.
Qed.

Lemma forwarded_lookups vocabulary merges (u : pyval) (kwargs : gmap string pyval) :
  let args := <["vocabulary" := vocabulary]>
                (<["merges" := merges]> (<["unsplittable_tokens" := u]> kwargs)) in
  args !! "vocabulary" = Some vocabulary /\
  args !! "merges" = Some merges /\
  args !! "unsplittable_tokens" = Some u.
Proof.
  cbv zeta. split_and!.
  - apply lookup_insert_eq.
  - rewrite lookup_insert_ne by done. apply lookup_insert_eq.
  - rewrite !lookup_insert_ne by done. apply lookup_insert_eq.
Qed.

Lemma forwarded_options vocabulary merges (u : pyval) (kwargs : gmap string pyval) :
  forwardable kwargs ->
  delete "vocabulary" (delete "merges" (delete "unsplittable_tokens"
    (<["vocabulary" := vocabulary]>
       (<["merges" := merges]> (<["unsplittable_tokens" := u]> kwargs)))))
  = kwargs.
Proof.
  intros (Hv & Hm & Hu). apply map_eq. intros k.
  destruct (decide (k = "vocabulary")) as [->|Hkv];
    [by rewrite lookup_delete_eq|rewrite lookup_delete_ne by done].
  destruct (decide (k = "merges")) as [->|Hkm];
    [by rewrite lookup_delete_eq|rewrite lookup_delete_ne by done].
  destruct (decide (k = "unsplittable_tokens")) as [->|Hku];
    [by rewrite lookup_delete_eq|rewrite lookup_delete_ne by done].
  by rewrite !lookup_insert_ne by done.
Qed.

(** The superclass constructor on the forwarded keyword dictionary. *)
Lemma super_init_forwarded vocabulary merges kwargs vm ml :
  forwardable kwargs ->
  resolve_v vocabulary = Ok vm ->
  resolve_m merges = Ok ml ->
  super_init (<["vocabulary" := vocabulary]>
                (<["merges" := merges]>
                   (<["unsplittable_tokens" := PyList [end_token]]> kwargs)))
  = Ok (engine (built vocabulary merges kwargs vm ml 0)).
Proof.
  intros Hf Hv Hm. unfold BytePairTokenizer_init, required.
  destruct (forwarded_lookups vocabulary merges (PyList [end_token]) kwargs)
    as (-> & -> & ->).
  cbn [mbind result_bind]. rewrite Hv, Hm.
  cbn [mbind result_bind resolve_unsplittable].
  by rewrite forwarded_options.
Qed.

(** Construction succeeds exactly on forwardable keyword arguments, a
    vocabulary and merges that resolve, and a vocabulary with the end
    token; the instance is then [built]. *)
Lemma super_init_unresolved vocabulary merges kwargs :
  (forall vm, resolve_v vocabulary <> Ok vm) \/
  (forall ml, resolve_m merges <> Ok ml) ->
  forall self,
    super_init (<["vocabulary" := vocabulary]>
                  (<["merges" := merges]>
                     (<["unsplittable_tokens" := PyList [end_token]]> kwargs)))
    <> Ok self.
Proof.
  intros Hbad self. unfold BytePairTokenizer_init, required.
  destruct (forwarded_lookups vocabulary merges (PyList [end_token]) kwargs)
    as (-> & -> & _).
  cbn [mbind result_bind].
  destruct (resolve_v vocabulary) as [vm|e] eqn:Hv; [|discriminate].
  cbn [mbind result_bind].
  destruct (resolve_m merges) as [ml|e] eqn:Hm; [|discriminate].
  destruct Hbad as [Hbad|Hbad]; [by destruct (Hbad vm)|by destruct (Hbad ml)].
Qed.

(** Construction succeeds exactly on forwardable keyword arguments, a
    vocabulary and merges that resolve, and a vocabulary with the end
    token; the instance is then [built]. *)
Lemma init_Ok_iff vocabulary merges kwargs t :
  init vocabulary merges kwargs = Ok t <->
  exists vm ml i,
    forwardable kwargs /\ resolve_v vocabulary = Ok vm /\
    resolve_m merges = Ok ml /\ vm !! end_token = Some i /\
    t = built vocabulary merges kwargs vm ml i.
Proof.
  unfold GPTNeoXTokenizer_init. split.
  - destruct (keyword_call _ kwargs) as [args|e] eqn:Hcall; [|discriminate].
    pose proof (keyword_call_Ok_forwardable _ _ _ _ Hcall) as Hf.
    rewrite keyword_call_forwardable in Hcall by done.
    injection Hcall as <-. cbn [mbind result_bind].
    destruct (resolve_v vocabulary) as [vm|e] eqn:Hv.
    2:{ destruct (super_init _) as [self|e'] eqn:Hs; [|discriminate].
        exfalso. revert Hs. apply super_init_unresolved.
        left. rewrite Hv. discriminate. }
    destruct (resolve_m merges) as [ml|e] eqn:Hm.
    2:{ destruct (super_init _) as [self|e'] eqn:Hs; [|discriminate].
        exfalso. revert Hs. apply super_init_unresolved.
        right. rewrite Hm. discriminate. }
    rewrite (super_init_forwarded _ _ _ vm ml) by done.
    unfold py_in, get_vocabulary, token_to_id. cbn.
    destruct (vm !! end_token) as [i|] eqn:Hi; cbn; [|discriminate].
    intros [= <-]. by exists vm, ml, i.
  - intros (vm & ml & i & Hf & Hv & Hm & Hi & ->).
    rewrite keyword_call_forwardable by done. cbn [mbind result_bind].
    rewrite (super_init_forwarded _ _ _ vm ml) by done.
    unfold py_in, get_vocabulary, token_to_id. cbn.
    by rewrite Hi.
Qed.

(** [get_config] of a built instance: the forwarded keyword dictionary
    without the unsplittable tokens. *)
Lemma get_config_built vocabulary merges kwargs vm ml i :
  forwardable kwargs ->
  get_config (built vocabulary merges kwargs vm ml i)
  = Ok (<["vocabulary" := vocabulary]> (<["merges" := merges]> kwargs)).
Proof.
  intros (Hv & Hm & Hu).
  unfold get_config, BytePairTokenizer_get_config, py_del. cbn [built engine
    bpe_vocabulary_ref bpe_merges_ref bpe_unsplittable_tokens bpe_options].
  destruct (forwarded_lookups vocabulary merges (PyList [end_token]) kwargs)
    as (_ & _ & ->).
  rewrite !delete_insert_ne by done.
  by rewrite delete_insert_eq, delete_id.
Qed.

(** Calling the class with that configuration is the original call. *)
Lemma from_config_built vocabulary merges kwargs :
  forwardable kwargs ->
  from_config read_vocabulary_file read_merges_file
    (<["vocabulary" := vocabulary]> (<["merges" := merges]> kwargs))
  = init vocabulary merges kwargs.
Proof.
  intros (Hv & Hm & Hu). unfold from_config, required.
  rewrite lookup_insert_eq. cbn [mbind result_bind].
  rewrite (lookup_insert_ne _ "vocabulary" "merges") by done.
  rewrite lookup_insert_eq. cbn [mbind result_bind].
  rewrite (delete_insert_ne _ "merges" "vocabulary") by done.
  rewrite (delete_insert_eq kwargs "merges"), (delete_id kwargs "merges") by done.
  by rewrite delete_insert_eq, delete_id.
Qed.

(** C1: for every vocabulary, given as a mapping or as a file reference,
    that resolves to a mapping holding ["<|endoftext|>"], construction
    succeeds (the merges resolve and the keyword arguments are forwardable),
    and [end_token_id] is the id that a direct lookup of ["<|endoftext|>"]
    in the tokenizer's vocabulary returns. *)
Theorem construction_succeeds_with_end_token
    vocabulary merges kwargs vm ml i :
  resolve_v vocabulary = Ok vm ->
  vm !! end_token = Some i ->
  resolve_m merges = Ok ml ->
  forwardable kwargs ->
  exists t,
    init vocabulary merges kwargs = Ok t /\
    get_vocabulary (engine t) = vm /\
    token_to_id (engine t) end_token = Ok (end_token_id t) /\
    end_token_id t = i.
Proof.
  intros Hv Hi Hm Hf. exists (built vocabulary merges kwargs vm ml i).
  split; [apply init_Ok_iff; by exists vm, ml, i|].
  unfold get_vocabulary, token_to_id. cbn. by rewrite Hi.
Qed.

(** Without the end token no instance is produced, whatever the merges
    and keyword arguments are. *)
Lemma no_instance_without_end_token vocabulary merges kwargs vm :
  resolve_v vocabulary = Ok vm ->
  vm !! end_token = None ->
  forall t, init vocabulary merges kwargs <> Ok t.
Proof.
  intros Hv Hnone t Ht.
  apply init_Ok_iff in Ht as (vm' & ml & i & _ & Hv' & _ & Hi & _).
  rewrite Hv in Hv'. injection Hv' as <-. congruence.
Qed.

(** C2: for every vocabulary that resolves to a mapping without
    ["<|endoftext|>"] (the merges resolve and the keyword arguments are
    forwardable), construction fails with the [ValueError] of the
    constructor and produces no tokenizer instance; the message names the
    token ["<|endoftext|>"] and tells the caller to provide it in the
    vocabulary or to use a pretrained vocabulary name. *)
Theorem construction_fails_without_end_token
    vocabulary merges kwargs vm ml :
  resolve_v vocabulary = Ok vm ->
  vm !! end_token = None ->
  resolve_m merges = Ok ml ->
  forwardable kwargs ->
  init vocabulary merges kwargs
  = Raise (ValueError (missing_token_message end_token)) /\
  (forall t, init vocabulary merges kwargs <> Ok t) /\
  missing_token_message end_token
  = "Cannot find token `'<|endoftext|>'` in the provided `vocabulary`. Please provide `'<|endoftext|>'` in your `vocabulary` or use a pretrained `vocabulary` name." /\
  contains "<|endoftext|>" (missing_token_message end_token) = true /\
  contains "Please provide `'<|endoftext|>'` in your `vocabulary`"
    (missing_token_message end_token) = true /\
  contains "or use a pretrained `vocabulary` name"
    (missing_token_message end_token) = true.
Proof.
  intros Hv Hnone Hm Hf. split_and!; try reflexivity.
  - unfold GPTNeoXTokenizer_init.
    rewrite keyword_call_forwardable by done. cbn [mbind result_bind].
    rewrite (super_init_forwarded _ _ _ vm ml) by done.
    unfold py_in, get_vocabulary. cbn. by rewrite Hnone.
  - by apply (no_instance_without_end_token _ _ _ vm).
Qed.


(** C4: for every successfully constructed tokenizer [t], [get_config]
    returns a configuration from which construction succeeds again, and the
    tokenizer it yields has the same [start_token_id], [end_token_id] and
    [pad_token_id] as [t] and tokenizes every text as [t] does. *)
Theorem config_round_trip vocabulary merges kwargs t :
  init vocabulary merges kwargs = Ok t ->
  exists config t',
    get_config t = Ok config /\
    from_config read_vocabulary_file read_merges_file config = Ok t' /\
    start_token_id t' = start_token_id t /\
    end_token_id t' = end_token_id t /\
    pad_token_id t' = pad_token_id t /\
    forall text,
      tokenize byte_pair_encode t' text = tokenize byte_pair_encode t text.
Proof.
  intros Ht. pose proof Ht as Hagain.
  apply init_Ok_iff in Ht as (vm & ml & i & Hf & _ & _ & _ & Heq).
  exists (<["vocabulary" := vocabulary]> (<["merges" := merges]> kwargs)), t.
  split; [subst t; by apply get_config_built|].
  split; [by rewrite from_config_built|done].
Qed.

(** C5: for every successfully constructed tokenizer, the record
    [get_config] returns has no [unsplittable_tokens] field and agrees with
    the engine's configuration on every other field (the vocabulary
    reference, the merges reference, each engine option); reconstruction
    from it succeeds and gives the engine the same unsplittable tokens. *)
Theorem get_config_drops_unsplittable_tokens vocabulary merges kwargs t :
  init vocabulary merges kwargs = Ok t ->
  exists config,
    get_config t = Ok config /\
    config !! "unsplittable_tokens" = None /\
    (forall k, k <> "unsplittable_tokens" ->
       config !! k = BytePairTokenizer_get_config (engine t) !! k) /\
    config !! "vocabulary" = Some vocabulary /\
    config !! "merges" = Some merges /\
    (forall k x, kwargs !! k = Some x -> config !! k = Some x) /\
    exists t',
      from_config read_vocabulary_file read_merges_file config = Ok t' /\
      bpe_unsplittable_tokens (engine t')
      = bpe_unsplittable_tokens (engine t).
Proof.
  intros Ht. pose proof Ht as Hagain.
  apply init_Ok_iff in Ht as (vm & ml & i & Hf & _ & _ & _ & Heq).
  pose proof Hf as (Hv & Hm & Hu).
  exists (<["vocabulary" := vocabulary]> (<["merges" := merges]> kwargs)).
  split_and!.
  - subst t. by apply get_config_built.
  - by rewrite !lookup_insert_ne.
  - intros k Hk. subst t. unfold BytePairTokenizer_get_config. cbn.
    rewrite !lookup_insert. repeat case_decide; congruence.
  - apply lookup_insert_eq.
  - rewrite lookup_insert_ne by done. apply lookup_insert_eq.
  - intros k x Hk.
    rewrite !lookup_insert_ne by congruence. done.
  - exists t. by rewrite from_config_built.
Qed.

(** A call that supplies [unsplittable_tokens] itself is rejected: the
    keyword is written in the call of the superclass constructor and is in
    [kwargs] too. *)
Lemma caller_unsplittable_tokens_rejected vocabulary merges kwargs :
  kwargs !! "vocabulary" = None ->
  kwargs !! "merges" = None ->
  is_Some (kwargs !! "unsplittable_tokens") ->
  init vocabulary merges kwargs
  = Raise (TypeError_multiple_values "unsplittable_tokens").
Proof.
  intros Hv Hm [u Hu]. unfold GPTNeoXTokenizer_init. cbn [keyword_call].
  by rewrite Hv, Hm, Hu.
Qed.

(** C6, as amended: for every successful construction call the engine was
    constructed from the caller's vocabulary and merges, the caller's
    keyword arguments as options, and exactly [["<|endoftext|>"]] as
    unsplittable tokens; the caller supplied no unsplittable tokens of its
    own, since such a call is rejected and nothing is unioned. *)
Theorem engine_receives_end_token_only vocabulary merges kwargs t :
  init vocabulary merges kwargs = Ok t ->
  super_init (<["vocabulary" := vocabulary]>
                (<["merges" := merges]>
                   (<["unsplittable_tokens" := PyList [end_token]]> kwargs)))
  = Ok (engine t) /\
  bpe_vocabulary_ref (engine t) = vocabulary /\
  bpe_merges_ref (engine t) = merges /\
  bpe_options (engine t) = kwargs /\
  bpe_unsplittable_tokens (engine t) = [end_token] /\
  kwargs !! "unsplittable_tokens" = None.
Proof.
  intros Ht.
  apply init_Ok_iff in Ht as (vm & ml & i & Hf & Hv & Hm & _ & ->).
  split; [by rewrite (super_init_forwarded _ _ _ vm ml)|].
  cbn. split_and!; try done. apply Hf.
Qed.

(** C7: for the vocabulary
    [{"[PAD]":0, "[UNK]":1, "<|endoftext|>":2, "a":3, "b":4}] construction
    succeeds with [end_token_id = 2], [start_token_id = 2] and
    [pad_token_id = 0]. *)
Theorem scenario_construction merges ml kwargs :
  resolve_m merges = Ok ml ->
  forwardable kwargs ->
  exists t,
    init (PyDict scenario_vocabulary) merges kwargs = Ok t /\
    end_token_id t = 2 /\ start_token_id t = 2 /\ pad_token_id t = 0.
Proof.
  intros Hm Hf.
  exists (built (PyDict scenario_vocabulary) merges kwargs
            scenario_vocabulary ml 2).
  split; [|done]. apply init_Ok_iff.
  by exists scenario_vocabulary, ml, 2.
Qed.

(** C8: for every successfully constructed tokenizer, [start_token_id] and
    [end_token_id] hold the same id, the one of ["<|endoftext|>"]. *)
Theorem start_token_id_is_end_token_id vocabulary merges kwargs t :
  init vocabulary merges kwargs = Ok t ->
  start_token_id t = end_token_id t /\
  token_to_id (engine t) end_token = Ok (start_token_id t).
Proof.
  intros Ht.
  apply init_Ok_iff in Ht as (vm & ml & i & _ & _ & _ & Hi & ->).
  unfold token_to_id. cbn. by rewrite Hi.
Qed.

(** C10: for every successful construction [pad_token_id] is 0, whatever
    the vocabulary holds: with the same merges and keyword arguments,
    construction also succeeds with [pad_token_id = 0] on the vocabulary
    with any other token [pad_token] removed, and on the vocabulary with
    [pad_token] mapped to any id [k]. *)
Theorem pad_token_id_is_constant vocabulary merges kwargs t pad_token :
  init vocabulary merges kwargs = Ok t ->
  pad_token <> end_token ->
  pad_token_id t = 0 /\
  (exists t',
     init (PyDict (delete pad_token (get_vocabulary (engine t)))) merges kwargs
     = Ok t' /\
     pad_token_id t' = 0 /\
     token_to_id (engine t') pad_token = Raise (LookupError pad_token)) /\
  (forall k, exists t',
     init (PyDict (<[pad_token := k]> (get_vocabulary (engine t)))) merges kwargs
     = Ok t' /\
     pad_token_id t' = 0 /\
     token_to_id (engine t') pad_token = Ok k).
Proof.
  intros Ht Hne.
  apply init_Ok_iff in Ht as (vm & ml & i & Hf & Hv & Hm & Hi & ->).
  unfold get_vocabulary. cbn. split_and!; [done| |intros k].
  - exists (built (PyDict (delete pad_token vm)) merges kwargs
              (delete pad_token vm) ml i).
    split_and!; [|done|].
    + apply init_Ok_iff. exists (delete pad_token vm), ml, i.
      split_and!; try done. by rewrite lookup_delete_ne.
    + unfold token_to_id. cbn. by rewrite lookup_delete_eq.
  - exists (built (PyDict (<[pad_token := k]> vm)) merges kwargs
              (<[pad_token := k]> vm) ml i).
    split_and!; [|done|].
    + apply init_Ok_iff. exists (<[pad_token := k]> vm), ml, i.
      split_and!; try done. by rewrite lookup_insert_ne.
    + unfold token_to_id. cbn. by rewrite lookup_insert_eq.
Qed.

End Properties.

(** * Concrete instances *)

Lemma forwardable_example_options : forwardable example_options.
Proof. repeat split. Defined.

Lemma forwardable_no_options : forwardable ∅.
Proof. repeat split. Defined.

(** The scenario vocabulary read from a file. *)
Lemma construction_succeeds_with_end_token_witness :
  resolve_vocabulary one_vocabulary_file (PyStr "vocab.json")
  = Ok scenario_vocabulary /\
  scenario_vocabulary !! end_token = Some 2 /\
  resolve_merges one_merges_file (PyStr "merges.txt") = Ok ["a b"] /\
  forwardable example_options /\
  exists t,
    GPTNeoXTokenizer_init one_vocabulary_file one_merges_file
      (PyStr "vocab.json") (PyStr "merges.txt") example_options = Ok t /\
    get_vocabulary (engine t) = scenario_vocabulary /\
    token_to_id (engine t) end_token = Ok (end_token_id t) /\
    end_token_id t = 2.
Proof.
  split; [reflexivity|]. split; [reflexivity|]. split; [reflexivity|].
  split; [exact forwardable_example_options|].
  apply (construction_succeeds_with_end_token
           one_vocabulary_file one_merges_file
           (PyStr "vocab.json") (PyStr "merges.txt") example_options
           scenario_vocabulary ["a b"] 2);
    [reflexivity|reflexivity|reflexivity|exact forwardable_example_options].
Defined.

(** The scenario vocabulary without the end token. *)
Lemma construction_fails_without_end_token_witness :
  resolve_vocabulary no_vocabulary_file (PyDict scenario_without_end_token)
  = Ok scenario_without_end_token /\
  scenario_without_end_token !! end_token = None /\
  resolve_merges no_merges_file (PyList ["a b"]) = Ok ["a b"] /\
  forwardable example_options /\
  GPTNeoXTokenizer_init no_vocabulary_file no_merges_file
    (PyDict scenario_without_end_token) (PyList ["a b"]) example_options
  = Raise (ValueError (missing_token_message end_token)).
Proof.
  split; [reflexivity|]. split; [reflexivity|]. split; [reflexivity|].
  split; [exact forwardable_example_options|].
  apply (construction_fails_without_end_token
           no_vocabulary_file no_merges_file
           (PyDict scenario_without_end_token) (PyList ["a b"]) example_options
           scenario_without_end_token ["a b"]
           eq_refl eq_refl eq_refl forwardable_example_options).
Defined.

Lemma scenario_tokenizer_constructed :
  GPTNeoXTokenizer_init no_vocabulary_file no_merges_file
    (PyDict scenario_vocabulary) (PyList ["a b"]) example_options
  = Ok scenario_tokenizer.
Proof. reflexivity. Defined.



Lemma config_round_trip_witness :
  GPTNeoXTokenizer_init one_vocabulary_file one_merges_file
    (PyStr "vocab.json") (PyStr "merges.txt") example_options
  = Ok (Build_GPTNeoXTokenizer
          (Build_BytePairTokenizer (PyStr "vocab.json") (PyStr "merges.txt")
             scenario_vocabulary ["a b"] [end_token] example_options)
          2 2 0) /\
  exists config t',
    get_config
      (Build_GPTNeoXTokenizer
         (Build_BytePairTokenizer (PyStr "vocab.json") (PyStr "merges.txt")
            scenario_vocabulary ["a b"] [end_token] example_options)
         2 2 0) = Ok config /\
    from_config one_vocabulary_file one_merges_file config = Ok t' /\
    start_token_id t' = 2 /\
    end_token_id t' = 2 /\
    pad_token_id t' = 0 /\
    forall text,
      tokenize whole_text_id t' text
      = whole_text_id scenario_vocabulary ["a b"] [end_token]
          example_options text.
Proof.
  split; [reflexivity|].
  apply (config_round_trip one_vocabulary_file one_merges_file whole_text_id
           (PyStr "vocab.json") (PyStr "merges.txt") example_options).
  reflexivity.
Defined.

Lemma get_config_drops_unsplittable_tokens_witness :
  GPTNeoXTokenizer_init no_vocabulary_file no_merges_file
    (PyDict scenario_vocabulary) (PyList ["a b"]) example_options
  = Ok scenario_tokenizer /\
  exists config,
    get_config scenario_tokenizer = Ok config /\
    config !! "unsplittable_tokens" = None /\
    (forall k, k <> "unsplittable_tokens" ->
       config !! k
       = BytePairTokenizer_get_config (engine scenario_tokenizer) !! k) /\
    config !! "vocabulary" = Some (PyDict scenario_vocabulary) /\
    config !! "merges" = Some (PyList ["a b"]) /\
    (forall k x, example_options !! k = Some x -> config !! k = Some x) /\
    exists t',
      from_config no_vocabulary_file no_merges_file config = Ok t' /\
      bpe_unsplittable_tokens (engine t') = [end_token].
Proof.
  split; [reflexivity|].
  apply (get_config_drops_unsplittable_tokens
           no_vocabulary_file no_merges_file
           (PyDict scenario_vocabulary) (PyList ["a b"]) example_options
           scenario_tokenizer).
  reflexivity.
Defined.

(** C6, as stated, fails: a caller who supplies unsplittable tokens gets a
    [TypeError], not an engine with the union of the two lists. *)
Lemma caller_unsplittable_tokens_not_unioned :
  GPTNeoXTokenizer_init no_vocabulary_file no_merges_file
    (PyDict scenario_vocabulary) (PyList ["a b"]) caller_unsplittable
  = Raise (TypeError_multiple_values "unsplittable_tokens") /\
  ~ exists t,
      GPTNeoXTokenizer_init no_vocabulary_file no_merges_file
        (PyDict scenario_vocabulary) (PyList ["a b"]) caller_unsplittable
      = Ok t /\
      bpe_unsplittable_tokens (engine t) = [end_token; "<|sep|>"].
Proof.
  split; [reflexivity|]. intros (t & Ht & _). discriminate Ht.
Qed.

Lemma engine_receives_end_token_only_witness :
  GPTNeoXTokenizer_init no_vocabulary_file no_merges_file
    (PyDict scenario_vocabulary) (PyList ["a b"]) example_options
  = Ok scenario_tokenizer /\
  BytePairTokenizer_init no_vocabulary_file no_merges_file
    (<["vocabulary" := PyDict scenario_vocabulary]>
       (<["merges" := PyList ["a b"]]>
          (<["unsplittable_tokens" := PyList [end_token]]> example_options)))
  = Ok (engine scenario_tokenizer) /\
  bpe_vocabulary_ref (engine scenario_tokenizer) = PyDict scenario_vocabulary /\
  bpe_merges_ref (engine scenario_tokenizer) = PyList ["a b"] /\
  bpe_options (engine scenario_tokenizer) = example_options /\
  bpe_unsplittable_tokens (engine scenario_tokenizer) = [end_token] /\
  example_options !! "unsplittable_tokens" = None.
Proof.
  split; [reflexivity|].
  apply (engine_receives_end_token_only no_vocabulary_file no_merges_file
           (PyDict scenario_vocabulary) (PyList ["a b"]) example_options
           scenario_tokenizer).
  reflexivity.
Defined.

Lemma scenario_construction_witness :
  resolve_merges one_merges_file (PyStr "merges.txt") = Ok ["a b"] /\
  forwardable ∅ /\
  exists t,
    GPTNeoXTokenizer_init no_vocabulary_file one_merges_file
      (PyDict scenario_vocabulary) (PyStr "merges.txt") ∅ = Ok t /\
    end_token_id t = 2 /\ start_token_id t = 2 /\ pad_token_id t = 0.
Proof.
  split; [reflexivity|]. split; [exact forwardable_no_options|].
  apply (scenario_construction no_vocabulary_file one_merges_file
           (PyStr "merges.txt") ["a b"] ∅ eq_refl forwardable_no_options).
Defined.

Lemma start_token_id_is_end_token_id_witness :
  GPTNeoXTokenizer_init no_vocabulary_file no_merges_file
    (PyDict scenario_vocabulary) (PyList ["a b"]) example_options
  = Ok scenario_tokenizer /\
  start_token_id scenario_tokenizer = end_token_id scenario_tokenizer /\
  token_to_id (engine scenario_tokenizer) end_token
  = Ok (start_token_id scenario_tokenizer).
Proof.
  split; [reflexivity|].
  apply (start_token_id_is_end_token_id no_vocabulary_file no_merges_file
           (PyDict scenario_vocabulary) (PyList ["a b"]) example_options
           scenario_tokenizer).
  reflexivity.
Defined.

Lemma pad_token_id_is_constant_witness :
  GPTNeoXTokenizer_init no_vocabulary_file no_merges_file
    (PyDict scenario_vocabulary) (PyList ["a b"]) example_options
  = Ok scenario_tokenizer /\
  "[PAD]" <> end_token /\
  pad_token_id scenario_tokenizer = 0 /\
  (exists t',
     GPTNeoXTokenizer_init no_vocabulary_file no_merges_file
       (PyDict (delete "[PAD]" (get_vocabulary (engine scenario_tokenizer))))
       (PyList ["a b"]) example_options = Ok t' /\
     pad_token_id t' = 0 /\
     token_to_id (engine t') "[PAD]" = Raise (LookupError "[PAD]")) /\
  (forall k, exists t',
     GPTNeoXTokenizer_init no_vocabulary_file no_merges_file
       (PyDict (<["[PAD]" := k]> (get_vocabulary (engine scenario_tokenizer))))
       (PyList ["a b"]) example_options = Ok t' /\
     pad_token_id t' = 0 /\
     token_to_id (engine t') "[PAD]" = Ok k).
Proof.
  split; [reflexivity|].
  assert (Hne : "[PAD]" <> end_token) by discriminate.
  split; [exact Hne|].
  apply (pad_token_id_is_constant no_vocabulary_file no_merges_file
           (PyDict scenario_vocabulary) (PyList ["a b"]) example_options
           scenario_tokenizer "[PAD]" eq_refl Hne).
Defined.

(** * Further properties of the constructor and of [get_config] *)

Section Serialization.

Variable read_vocabulary_file : string -> option (gmap string Z).
Variable read_merges_file : string -> option (list string).

Abbreviation construct :=
  (GPTNeoXTokenizer_init read_vocabulary_file read_merges_file).
Abbreviation reconstruct :=
  (from_config read_vocabulary_file read_merges_file).

(** X2: a configuration that still holds [unsplittable_tokens] beside
    [vocabulary] and [merges], as the superclass configuration does, cannot
    be used for reconstruction: the constructor writes that keyword itself
    and the call fails with a [TypeError]. *)
Theorem unstripped_config_rejected (config : gmap string pyval) :
  is_Some (config !! "vocabulary") ->
  is_Some (config !! "merges") ->
  is_Some (config !! "unsplittable_tokens") ->
  reconstruct config
  = Raise (TypeError_multiple_values "unsplittable_tokens").
Proof.
  intros [v Hv] [m Hm] [u Hu]. unfold from_config, required.
  rewrite Hv, Hm. cbn [mbind result_bind].
  unfold GPTNeoXTokenizer_init. cbn [keyword_call].
  rewrite lookup_delete_eq.
  rewrite (lookup_delete_ne _ "vocabulary" "merges") by done.
  rewrite lookup_delete_eq.
  rewrite !lookup_delete_ne by done.
  by rewrite Hu.
Qed.

(** X4: in a constructed tokenizer the padding id coincides with the end
    (and start) token id exactly when the vocabulary maps ["<|endoftext|>"]
    to 0. *)
Theorem pad_collides_with_end_token vocabulary merges kwargs t :
  construct vocabulary merges kwargs = Ok t ->
  pad_token_id t = end_token_id t <->
  get_vocabulary (engine t) !! end_token = Some 0.
Proof.
  intros Ht.
  apply init_Ok_iff in Ht as (vm & ml & i & _ & _ & _ & Hi & ->).
  unfold get_vocabulary. cbn. rewrite Hi. split; [by intros <-|by intros [= ->]].
Qed.

(** X5: the three special-token ids depend on nothing but the id of
    ["<|endoftext|>"]: two constructed tokenizers whose vocabularies agree
    on that token have equal ids, whatever the rest of their vocabularies,
    their merges and their options are. *)
Theorem special_ids_depend_on_end_token_only
    vocabulary1 merges1 kwargs1 t1 vocabulary2 merges2 kwargs2 t2 :
  construct vocabulary1 merges1 kwargs1 = Ok t1 ->
  construct vocabulary2 merges2 kwargs2 = Ok t2 ->
  get_vocabulary (engine t1) !! end_token
  = get_vocabulary (engine t2) !! end_token ->
  end_token_id t1 = end_token_id t2 /\
  start_token_id t1 = start_token_id t2 /\
  pad_token_id t1 = pad_token_id t2.
Proof.
  intros Ht1 Ht2.
  apply init_Ok_iff in Ht1 as (vm1 & ml1 & i1 & _ & _ & _ & Hi1 & ->).
  apply init_Ok_iff in Ht2 as (vm2 & ml2 & i2 & _ & _ & _ & Hi2 & ->).
  unfold get_vocabulary. cbn. rewrite Hi1, Hi2. by intros [= ->].
Qed.

End Serialization.

Section CallerKeywords.

Variable read_vocabulary_file : string -> option (gmap string Z).
Variable read_merges_file : string -> option (list string).

(** X1: a call that supplies [unsplittable_tokens] among its keyword
    arguments always fails with the duplicate-keyword [TypeError], naming a
    keyword the caller supplied, whatever the vocabulary, the merges and the
    other keywords are: the vocabulary is not examined. *)
Theorem caller_unsplittable_tokens_always_fail vocabulary merges kwargs :
  is_Some (kwargs !! "unsplittable_tokens") ->
  exists k,
    GPTNeoXTokenizer_init read_vocabulary_file read_merges_file
      vocabulary merges kwargs
    = Raise (TypeError_multiple_values k) /\
    is_Some (kwargs !! k).
Proof.
  intros [u Hu]. unfold GPTNeoXTokenizer_init. cbn [keyword_call].
  destruct (kwargs !! "vocabulary") as [x|] eqn:Hv;
    [exists "vocabulary"; by rewrite Hv|].
  destruct (kwargs !! "merges") as [x|] eqn:Hm;
    [exists "merges"; by rewrite Hm|].
  exists "unsplittable_tokens". by rewrite Hu.
Qed.

End CallerKeywords.

(** * Concrete instances of the further properties *)

Lemma caller_unsplittable_tokens_always_fail_witness :
  is_Some (caller_unsplittable !! "unsplittable_tokens") /\
  exists k,
    GPTNeoXTokenizer_init no_vocabulary_file no_merges_file
      (PyDict scenario_without_end_token) (PyInt 7) caller_unsplittable
    = Raise (TypeError_multiple_values k) /\
    is_Some (caller_unsplittable !! k).
Proof.
  assert (Hsome : is_Some (caller_unsplittable !! "unsplittable_tokens"))
    by (eexists; reflexivity).
  split; [exact Hsome|].
  apply (caller_unsplittable_tokens_always_fail
           no_vocabulary_file no_merges_file
           (PyDict scenario_without_end_token) (PyInt 7) caller_unsplittable
           Hsome).
Defined.

Lemma unstripped_config_rejected_witness :
  is_Some (BytePairTokenizer_get_config (engine scenario_tokenizer)
           !! "vocabulary") /\
  is_Some (BytePairTokenizer_get_config (engine scenario_tokenizer)
           !! "merges") /\
  is_Some (BytePairTokenizer_get_config (engine scenario_tokenizer)
           !! "unsplittable_tokens") /\
  from_config no_vocabulary_file no_merges_file
    (BytePairTokenizer_get_config (engine scenario_tokenizer))
  = Raise (TypeError_multiple_values "unsplittable_tokens").
Proof.
  assert (Hv : is_Some (BytePairTokenizer_get_config (engine scenario_tokenizer)
                        !! "vocabulary")) by (eexists; reflexivity).
  assert (Hm : is_Some (BytePairTokenizer_get_config (engine scenario_tokenizer)
                        !! "merges")) by (eexists; reflexivity).
  assert (Hu : is_Some (BytePairTokenizer_get_config (engine scenario_tokenizer)
                        !! "unsplittable_tokens")) by (eexists; reflexivity).
  split; [exact Hv|]. split; [exact Hm|]. split; [exact Hu|].
  apply (unstripped_config_rejected no_vocabulary_file no_merges_file
           (BytePairTokenizer_get_config (engine scenario_tokenizer))
           Hv Hm Hu).
Defined.

Lemma pad_collides_with_end_token_witness :
  GPTNeoXTokenizer_init no_vocabulary_file no_merges_file
    (PyDict pad_elsewhere_vocabulary) (PyList ["a b"]) ∅
  = Ok (built (PyDict pad_elsewhere_vocabulary) (PyList ["a b"]) ∅
          pad_elsewhere_vocabulary ["a b"] 0) /\
  (pad_token_id (built (PyDict pad_elsewhere_vocabulary) (PyList ["a b"]) ∅
                   pad_elsewhere_vocabulary ["a b"] 0)
   = end_token_id (built (PyDict pad_elsewhere_vocabulary) (PyList ["a b"]) ∅
                     pad_elsewhere_vocabulary ["a b"] 0)
   <-> pad_elsewhere_vocabulary !! end_token = Some 0).
Proof.
  split; [reflexivity|].
  apply (pad_collides_with_end_token no_vocabulary_file no_merges_file
           (PyDict pad_elsewhere_vocabulary) (PyList ["a b"]) ∅
           (built (PyDict pad_elsewhere_vocabulary) (PyList ["a b"]) ∅
              pad_elsewhere_vocabulary ["a b"] 0)).
  reflexivity.
Defined.

Lemma special_ids_depend_on_end_token_only_witness :
  GPTNeoXTokenizer_init no_vocabulary_file one_merges_file
    (PyDict pad_elsewhere_vocabulary) (PyList ["a b"]) example_options
  = Ok (built (PyDict pad_elsewhere_vocabulary) (PyList ["a b"])
          example_options pad_elsewhere_vocabulary ["a b"] 0) /\
  GPTNeoXTokenizer_init no_vocabulary_file one_merges_file
    (PyDict end_token_only_vocabulary) (PyStr "merges.txt") ∅
  = Ok (built (PyDict end_token_only_vocabulary) (PyStr "merges.txt") ∅
          end_token_only_vocabulary ["a b"] 0) /\
  pad_elsewhere_vocabulary !! end_token
  = end_token_only_vocabulary !! end_token /\
  end_token_id (built (PyDict pad_elsewhere_vocabulary) (PyList ["a b"])
                  example_options pad_elsewhere_vocabulary ["a b"] 0)
  = end_token_id (built (PyDict end_token_only_vocabulary)
                    (PyStr "merges.txt") ∅
                    end_token_only_vocabulary ["a b"] 0) /\
  start_token_id (built (PyDict pad_elsewhere_vocabulary) (PyList ["a b"])
                    example_options pad_elsewhere_vocabulary ["a b"] 0)
  = start_token_id (built (PyDict end_token_only_vocabulary)
                      (PyStr "merges.txt") ∅
                      end_token_only_vocabulary ["a b"] 0) /\
  pad_token_id (built (PyDict pad_elsewhere_vocabulary) (PyList ["a b"])
                  example_options pad_elsewhere_vocabulary ["a b"] 0)
  = pad_token_id (built (PyDict end_token_only_vocabulary)
                    (PyStr "merges.txt") ∅
                    end_token_only_vocabulary ["a b"] 0).
Proof.
  split; [reflexivity|]. split; [reflexivity|]. split; [reflexivity|].
  apply (special_ids_depend_on_end_token_only
           no_vocabulary_file one_merges_file
           (PyDict pad_elsewhere_vocabulary) (PyList ["a b"]) example_options
           (built (PyDict pad_elsewhere_vocabulary) (PyList ["a b"])
              example_options pad_elsewhere_vocabulary ["a b"] 0)
           (PyDict end_token_only_vocabulary) (PyStr "merges.txt") ∅
           (built (PyDict end_token_only_vocabulary) (PyStr "merges.txt") ∅
              end_token_only_vocabulary ["a b"] 0));
    reflexivity.
Defined.
